(** * match-document-filename: the rule's [Document] visitor, embedded in Rocq

    Source: [packages/plugin/src/rules/match-document-filename.ts].

    The visitor is modelled as a function from the rule options, the two
    values computed by [create] from the file path ([fileExtension] and
    [filename]) and the document's definitions to the list of reports it
    hands to [context.report], in emission order.  [create] itself only
    decides, from the file system and the environment, whether the visitor is
    installed at all; that decision is outside this development. *)

From Stdlib Require Import List Bool Arith Lia.
From Stdlib Require Import Strings.Ascii Strings.String.
Import ListNotations.

Local Open Scope string_scope.
Local Open Scope list_scope.

(** ** [../utils]: case conversion and the report location *)

Module Utils.

(** The five styles of [CaseStyle] exported by [../utils]. *)
Inductive CaseStyle : Type :=
| camelCase
| PascalCase
| snake_case
| UPPER_CASE
| kebab_case.

(** *** Characters (ASCII letters; GraphQL names are ASCII) *)

Definition code (c : ascii) : nat := nat_of_ascii c.

Definition is_upper (c : ascii) : bool :=
  ((65 <=? code c) && (code c <=? 90))%nat.
Definition is_lower (c : ascii) : bool :=
  ((97 <=? code c) && (code c <=? 122))%nat.

Definition toLower (c : ascii) : ascii :=
  if is_upper c then ascii_of_nat (code c + 32) else c.
Definition toUpper (c : ascii) : ascii :=
  if is_lower c then ascii_of_nat (code c - 32) else c.

(** The three separator characters: [_], [-] and [.]. *)
Definition is_separator (c : ascii) : bool :=
  ((code c =? 95) || (code c =? 45) || (code c =? 46))%nat.

(** *** Word segmentation *)

(** A word starts at [c] (a case boundary) when [c] is upper case and
    either the previous character is lower case (lower-to-upper), or the
    previous character is upper case and the next one is lower case (the
    end of an acronym, as in [HTTP|Server]). *)
Definition boundary (prev : option ascii) (c : ascii) (next : option ascii) : bool :=
  is_upper c &&
  match prev with
  | None => false
  | Some p =>
      is_lower p ||
      (is_upper p && match next with Some n => is_lower n | None => false end)
  end.

Definition push (c : ascii) (ws : list (list ascii)) : list (list ascii) :=
  match ws with
  | [] => [[c]]
  | w :: r => (c :: w) :: r
  end.

(** [chunks prev s] cuts [s] at separators (which are dropped) and at case
    boundaries; the head of the result continues the word that was open
    when the scan reached [s], and chunks may be empty. *)
Fixpoint chunks (prev : option ascii) (s : list ascii) : list (list ascii) :=
  match s with
  | [] => [[]]
  | c :: rest =>
      if is_separator c then [] :: chunks (Some c) rest
      else if boundary prev c (hd_error rest)
           then [] :: push c (chunks (Some c) rest)
           else push c (chunks (Some c) rest)
  end.

Definition nonempty (w : list ascii) : bool :=
  match w with [] => false | _ :: _ => true end.

Definition words (s : list ascii) : list (list ascii) :=
  filter nonempty (chunks None s).

(** *** Re-joining *)

Definition lowercase (w : list ascii) : list ascii := map toLower w.
Definition uppercase (w : list ascii) : list ascii := map toUpper w.

Definition capitalize (w : list ascii) : list ascii :=
  match w with
  | [] => []
  | c :: r => toUpper c :: map toLower r
  end.

Fixpoint join (sep : ascii) (ws : list (list ascii)) : list ascii :=
  match ws with
  | [] => []
  | [w] => w
  | w :: r => w ++ sep :: join sep r
  end.

Definition pascalCase (s : list ascii) : list ascii :=
  List.concat (map capitalize (words s)).

Definition camelCase_ (s : list ascii) : list ascii :=
  match words s with
  | [] => []
  | w :: r => lowercase w ++ List.concat (map capitalize r)
  end.

Definition convertChars (style : CaseStyle) (s : list ascii) : list ascii :=
  match style with
  | camelCase => camelCase_ s
  | PascalCase => pascalCase s
  | snake_case => join "_"%char (map lowercase (words s))
  | UPPER_CASE => join "_"%char (map uppercase (words s))
  | kebab_case => join "-"%char (map lowercase (words s))
  end.

(** Modelled from the spec: [convertCase] is imported from [../utils], which
    is not among the sources.  Following the CaseConverter contract, the
    name is split into words on case boundaries (lower-to-upper and acronym
    boundaries), [_], [-] and [.], and the words are re-joined per style:
    camelCase lower-cases the first word and capitalizes the others,
    PascalCase capitalizes every word, snake_case and kebab-case lower-case
    the words and join them with [_] and [-], UPPER_CASE upper-cases them
    and joins with [_].  A capitalized word has its first letter in upper
    case and the rest in lower case: the rule's documentation accepts
    [DeleteUserMutation.gql] for [mutation DELETE_USER] under
    [{style: 'PascalCase', suffix: 'Mutation'}]. *)
Definition convertCase (style : CaseStyle) (str : string) : string :=
  string_of_list_ascii (convertChars style (list_ascii_of_string str)).

(** *** Notions used to reason about [words] *)







(** *** The report location *)

Record Position : Type := { line : nat; column : nat }.
Record Loc : Type := { start : Position }.

(** Modelled from the spec: [REPORT_ON_FIRST_CHARACTER] is imported from
    [../utils], which is not among the sources.  The spec anchors every
    diagnostic at the document's first character. *)
Definition REPORT_ON_FIRST_CHARACTER : Loc :=
  {| start := {| line := 1; column := 1 |} |}.

End Utils.


(** ** The rule *)

Module Rule.

(** [type CaseStyle = _CaseStyle | 'matchDocumentStyle'] *)
Inductive CaseStyle : Type :=
| Style (s : Utils.CaseStyle)
| matchDocumentStyle.

Definition CASE_STYLES : list CaseStyle :=
  [Style Utils.camelCase; Style Utils.PascalCase; Style Utils.snake_case;
   Style Utils.UPPER_CASE; Style Utils.kebab_case; matchDocumentStyle].

Inductive MessageId : Type := MATCH_EXTENSION | MATCH_STYLE.

(** [typeof ACCEPTED_EXTENSIONS[number]], that is ['.gql' | '.graphql']. *)
Inductive AcceptedExtension : Type := gql | graphql.

Definition ACCEPTED_EXTENSIONS : list AcceptedExtension := [gql; graphql].

Definition extensionString (e : AcceptedExtension) : string :=
  match e with
  | gql => ".gql"
  | graphql => ".graphql"
  end.

Record PropertySchema : Type := {
  style : option CaseStyle;
  suffix : option string;
  prefix : option string
}.

(** [CaseStyle | PropertySchema], told apart by [typeof option === 'string']. *)
Inductive OptionValue : Type :=
| AsString (s : CaseStyle)
| AsObject (o : PropertySchema).

Module Config.
Record MatchDocumentFilenameRuleConfig : Type := {
  fileExtension : option AcceptedExtension;
  query : option OptionValue;
  mutation : option OptionValue;
  subscription : option OptionValue;
  fragment : option OptionValue
}.
End Config.
Abbreviation MatchDocumentFilenameRuleConfig := Config.MatchDocumentFilenameRuleConfig.

(** [context.options[0] || { fileExtension: null }] when no option is given. *)
Definition defaultOptions : MatchDocumentFilenameRuleConfig :=
  {| Config.fileExtension := None; Config.query := None; Config.mutation := None;
     Config.subscription := None; Config.fragment := None |}.

(** *** The part of the document the visitor reads *)

Inductive OperationTypeNode : Type := OpQuery | OpMutation | OpSubscription.

Inductive Kind : Type := OPERATION_DEFINITION | FRAGMENT_DEFINITION | OTHER_KIND.

(** A top-level definition: an operation with its optional name, a fragment
    with its name, or a definition of any other kind (type system
    definitions and extensions), of which the visitor reads nothing. *)
Inductive DefinitionNode : Type :=
| OperationDefinition (operation : OperationTypeNode) (name : option string)
| FragmentDefinition (name : string)
| OtherDefinition.

Definition kind (n : DefinitionNode) : Kind :=
  match n with
  | OperationDefinition _ _ => OPERATION_DEFINITION
  | FragmentDefinition _ => FRAGMENT_DEFINITION
  | OtherDefinition => OTHER_KIND
  end.

Definition Kind_eqb (a b : Kind) : bool :=
  match a, b with
  | OPERATION_DEFINITION, OPERATION_DEFINITION => true
  | FRAGMENT_DEFINITION, FRAGMENT_DEFINITION => true
  | OTHER_KIND, OTHER_KIND => true
  | _, _ => false
  end.

(** [node.name?.value] *)
Definition nameValue (n : DefinitionNode) : option string :=
  match n with
  | OperationDefinition _ name => name
  | FragmentDefinition name => Some name
  | OtherDefinition => None
  end.

Inductive DocType : Type := TQuery | TMutation | TSubscription | TFragment.

(** ['operation' in node ? node.operation : 'fragment'] *)
Definition docTypeOf (n : DefinitionNode) : DocType :=
  match n with
  | OperationDefinition OpQuery _ => TQuery
  | OperationDefinition OpMutation _ => TMutation
  | OperationDefinition OpSubscription _ => TSubscription
  | _ => TFragment
  end.

(** [options[docType]] *)
Definition lookupOption (options : MatchDocumentFilenameRuleConfig) (t : DocType)
  : option OptionValue :=
  match t with
  | TQuery => Config.query options
  | TMutation => Config.mutation options
  | TSubscription => Config.subscription options
  | TFragment => Config.fragment options
  end.

(** *** Reports *)

Record Report : Type := {
  loc : Utils.Loc;
  messageId : MessageId;
  data : list (string * string)
}.

(** [context.report(r)]: the reports so far, with [r] added last. *)
Definition report (reports : list Report) (r : Report) : list Report :=
  reports ++ [r].

(** *** JavaScript truthiness of strings *)

Definition truthy (s : string) : bool := negb (s =? "")%string.

(** [o || d] for an optional string [o]. *)
Definition orElse (o : option string) (d : string) : string :=
  match o with
  | Some s => if truthy s then s else d
  | None => d
  end.

(** *** The visitor *)

(** [n => n.kind === Kind.OPERATION_DEFINITION] *)
Definition isOperation (n : DefinitionNode) : bool :=
  Kind_eqb (kind n) OPERATION_DEFINITION.

(** [n => n.kind === Kind.FRAGMENT_DEFINITION] *)
Definition isFragment (n : DefinitionNode) : bool :=
  Kind_eqb (kind n) FRAGMENT_DEFINITION.

Definition firstOperation (definitions : list DefinitionNode) : option DefinitionNode :=
  find isOperation definitions.

Definition firstFragment (definitions : list DefinitionNode) : option DefinitionNode :=
  find isFragment definitions.

(** [const node = firstOperation || firstFragment] *)
Definition node (definitions : list DefinitionNode) : option DefinitionNode :=
  match firstOperation definitions with
  | Some n => Some n
  | None => firstFragment definitions
  end.

(** [typeof option === 'string' ? { style: option } : option] *)
Definition asPropertySchema (option : OptionValue) : PropertySchema :=
  match option with
  | AsString s => {| style := Some s; suffix := None; prefix := None |}
  | AsObject o => o
  end.

(** [options.fileExtension || fileExtension] *)
Definition expectedExtension (options : MatchDocumentFilenameRuleConfig)
  (fileExtension : string) : string :=
  orElse (option_map extensionString (Config.fileExtension options)) fileExtension.

(** [option.style === 'matchDocumentStyle' ? docName : convertCase(option.style, docName)] *)
Definition styledName (s : CaseStyle) (docName : string) : string :=
  match s with
  | matchDocumentStyle => docName
  | Style s' => Utils.convertCase s' docName
  end.

(** The three assignments to [expectedFilename]. *)
Definition expectedFilename (options : MatchDocumentFilenameRuleConfig)
  (option : PropertySchema) (fileExtension filename docName : string) : string :=
  let expectedFilename := orElse (prefix option) "" in
  let expectedFilename :=
    match style option with
    | Some s => (expectedFilename ++ styledName s docName)%string
    | None => (expectedFilename ++ filename)%string
    end in
  (expectedFilename ++ (orElse (suffix option) "" ++ expectedExtension options fileExtension))%string.

(** The [Document] visitor returned by [create], for the [fileExtension]
    and [filename] that [create] computed with [extname] and [basename]. *)
Definition Document (options : MatchDocumentFilenameRuleConfig)
  (fileExtension filename : string) (definitions : list DefinitionNode)
  : list Report :=
  let reports : list Report := [] in
  let reports :=
    match Config.fileExtension options with
    | Some e =>
        if negb (extensionString e =? fileExtension)%string
        then report reports
               {| loc := Utils.REPORT_ON_FIRST_CHARACTER;
                  messageId := MATCH_EXTENSION;
                  data := [("fileExtension", fileExtension);
                           ("expectedFileExtension", extensionString e)] |}
        else reports
    | None => reports
    end in
  match node definitions with
  | None => reports
  | Some n =>
      match nameValue n with
      | None => reports
      | Some docName =>
          if negb (truthy docName) then reports
          else
            match lookupOption options (docTypeOf n) with
            | None => reports
            | Some option =>
                let option := asPropertySchema option in
                let expected :=
                  expectedFilename options option fileExtension filename docName in
                let filenameWithExtension :=
                  (filename ++ expectedExtension options fileExtension)%string in
                if negb (expected =? filenameWithExtension)%string
                then report reports
                       {| loc := Utils.REPORT_ON_FIRST_CHARACTER;
                          messageId := MATCH_STYLE;
                          data := [("expectedFilename", expected);
                                   ("filename", filenameWithExtension)] |}
                else reports
            end
      end
  end.

(** *** [create] *)

Module Context.
(** What [create] reads of the rule context: [context.options] and
    [context.getFilename()]. *)
Record RuleContext : Type := {
  options : list MatchDocumentFilenameRuleConfig;
  getFilename : string
}.
End Context.

(** What [create] reads of its environment: [existsSync] of [fs] and
    [process.env.NODE_ENV]. *)
Record Env : Type := {
  existsSync : string -> bool;
  NODE_ENV : option string
}.

Section Create.

(** [extname] and [basename] of Node's [path] module. *)
Variable extname : string -> string.
Variable basename : string -> string -> string.

(** [create(context)]: the [Document] visitor, or nothing when [create]
    returns the empty visitor object. *)
Definition create (env : Env) (context : Context.RuleContext)
  : option (list DefinitionNode -> list Report) :=
  let options :=
    match Context.options context with
    | o :: _ => o
    | [] => defaultOptions
    end in
  let filePath := Context.getFilename context in
  let isVirtualFile := negb (existsSync env filePath) in
  let notTest :=
    match NODE_ENV env with
    | Some v => negb (v =? "test")%string
    | None => true
    end in
  if notTest && isVirtualFile then None
  else
    let fileExtension := extname filePath in
    let filename := basename filePath fileExtension in
    Some (Document options fileExtension filename).

(** The reports of the rule on one document: the visitor that [create]
    returned, called on the document if it has a [Document] handler. *)
Definition lint (env : Env) (context : Context.RuleContext)
  (definitions : list DefinitionNode) : list Report :=
  match create env context with
  | Some visit => visit definitions
  | None => []
  end.

End Create.

(** *** The two checks, read separately

    [Document] runs the extension check and then, unless it returns early,
    the style check.  The two functions below give the reports of each check
    on its own; [Document_checks] proves that [Document] reports the first
    list followed by the second. *)

Definition extensionCheck (options : MatchDocumentFilenameRuleConfig)
  (fileExtension : string) : list Report :=
  match Config.fileExtension options with
  | Some e =>
      if (extensionString e =? fileExtension)%string then []
      else [{| loc := Utils.REPORT_ON_FIRST_CHARACTER;
               messageId := MATCH_EXTENSION;
               data := [("fileExtension", fileExtension);
                        ("expectedFileExtension", extensionString e)] |}]
  | None => []
  end.

Definition styleReport (expected actual : string) : Report :=
  {| loc := Utils.REPORT_ON_FIRST_CHARACTER;
     messageId := MATCH_STYLE;
     data := [("expectedFilename", expected); ("filename", actual)] |}.

Definition styleCheck (options : MatchDocumentFilenameRuleConfig)
  (fileExtension filename : string) (definitions : list DefinitionNode)
  : list Report :=
  match node definitions with
  | None => []
  | Some n =>
      match nameValue n with
      | None => []
      | Some docName =>
          if truthy docName then
            match lookupOption options (docTypeOf n) with
            | None => []
            | Some option =>
                let expected :=
                  expectedFilename options (asPropertySchema option)
                    fileExtension filename docName in
                let actual :=
                  (filename ++ expectedExtension options fileExtension)%string in
                if (expected =? actual)%string then []
                else [styleReport expected actual]
            end
          else []
      end
  end.

(** *** Reading reports *)

Definition MessageId_eqb (a b : MessageId) : bool :=
  match a, b with
  | MATCH_EXTENSION, MATCH_EXTENSION => true
  | MATCH_STYLE, MATCH_STYLE => true
  | _, _ => false
  end.

Definition withMessage (m : MessageId) (reports : list Report) : list Report :=
  filter (fun r => MessageId_eqb (messageId r) m) reports.

(** The value of a named parameter of a report's [data]. *)
Fixpoint param (key : string) (d : list (string * string)) : option string :=
  match d with
  | [] => None
  | (k, v) :: rest => if (k =? key)%string then Some v else param key rest
  end.

End Rule.

(** ** Configurations used in the examples *)

Import Utils Rule.

Definition only (t : DocType) (v : OptionValue) : MatchDocumentFilenameRuleConfig :=
  {| Config.fileExtension := None;
     Config.query := match t with TQuery => Some v | _ => None end;
     Config.mutation := match t with TMutation => Some v | _ => None end;
     Config.subscription := match t with TSubscription => Some v | _ => None end;
     Config.fragment := match t with TFragment => Some v | _ => None end |}.

Definition onlyExtension (e : AcceptedExtension) : MatchDocumentFilenameRuleConfig :=
  {| Config.fileExtension := Some e; Config.query := None; Config.mutation := None;
     Config.subscription := None; Config.fragment := None |}.

Definition withExtension (e : AcceptedExtension) (o : MatchDocumentFilenameRuleConfig)
  : MatchDocumentFilenameRuleConfig :=
  {| Config.fileExtension := Some e; Config.query := Config.query o;
     Config.mutation := Config.mutation o;
     Config.subscription := Config.subscription o;
     Config.fragment := Config.fragment o |}.

(** ** Notions used to state further properties *)

(** [o], or the empty string when [o] is not set. *)
Definition orEmpty (o : option string) : string :=
  match o with Some s => s | None => "" end.


(** * Properties *)

(** ** The case converter on the spec's examples *)

Example convert_pascal : convertCase PascalCase "user_by_id" = "UserById".
Proof. reflexivity. Qed.
Example convert_kebab : convertCase kebab_case "UserById" = "user-by-id".
Proof. reflexivity. Qed.
Example convert_pascal_upper : convertCase PascalCase "DELETE_USER" = "DeleteUser".
Proof. reflexivity. Qed.
Example convert_kebab_camel : convertCase kebab_case "addAlert" = "add-alert".
Proof. reflexivity. Qed.
Example convert_acronym : convertCase snake_case "HTTPServer.v2" = "http_server_v2".
Proof. reflexivity. Qed.
Example convert_camel : convertCase camelCase "USER_by-id" = "userById".
Proof. reflexivity. Qed.
Example convert_upper : convertCase UPPER_CASE "userById" = "USER_BY_ID".
Proof. reflexivity. Qed.

(** ** The spec's scenarios, run on the visitor *)

Example scenario_A :
  Document (onlyExtension gql) ".gql" "post" [OtherDefinition] = [].
Proof. reflexivity. Qed.

Example scenario_B :
  Document (onlyExtension graphql) ".gql" "post" [OtherDefinition] =
  [{| loc := REPORT_ON_FIRST_CHARACTER; messageId := MATCH_EXTENSION;
      data := [("fileExtension", ".gql"); ("expectedFileExtension", ".graphql")] |}].
Proof. reflexivity. Qed.

Example scenario_C :
  Document (only TQuery (AsString (Style snake_case))) ".gql" "user_by_id"
    [OperationDefinition OpQuery (Some "UserById")] = [].
Proof. reflexivity. Qed.

Example scenario_D :
  Document (only TQuery (AsString (Style PascalCase))) ".gql" "user-by-id"
    [OperationDefinition OpQuery (Some "UserById")] =
  [styleReport "UserById.gql" "user-by-id.gql"].
Proof. reflexivity. Qed.

Example scenario_E :
  Document
    (only TFragment
       (AsObject {| style := Some (Style kebab_case); suffix := Some ".fragment";
                    prefix := None |}))
    ".gql" "user-fields.fragment" [FragmentDefinition "user_fields"] = [].
Proof. reflexivity. Qed.

Example scenario_F :
  Document
    (only TFragment (AsObject {| style := None; suffix := None; prefix := Some "query." |}))
    ".graphql" "query.me"
    [FragmentDefinition "UserFields"; OperationDefinition OpQuery (Some "me")] = [].
Proof. reflexivity. Qed.

Example documented_mutation :
  Document
    (only TMutation
       (AsObject {| style := Some (Style PascalCase); suffix := Some "Mutation";
                    prefix := None |}))
    ".gql" "DeleteUserMutation" [OperationDefinition OpMutation (Some "DELETE_USER")] = [].
Proof. reflexivity. Qed.

(** ** The visitor as two checks *)

Lemma Document_checks options fileExtension filename definitions :
  Document options fileExtension filename definitions =
  extensionCheck options fileExtension ++
  styleCheck options fileExtension filename definitions.
Proof.
  unfold Document, extensionCheck, styleCheck, report.
  set (ext := Config.fileExtension options).
  destruct (node definitions) as [n|]; cbn [app].
  2: { destruct ext as [e|]; [destruct (extensionString e =? fileExtension)%string|];
       cbn; reflexivity. }
  destruct (nameValue n) as [docName|].
  2: { destruct ext as [e|]; [destruct (extensionString e =? fileExtension)%string|];
       cbn; reflexivity. }
  destruct (truthy docName); cbn [negb].
  2: { destruct ext as [e|]; [destruct (extensionString e =? fileExtension)%string|];
       cbn; reflexivity. }
  destruct (lookupOption options (docTypeOf n)) as [option|].
  2: { destruct ext as [e|]; [destruct (extensionString e =? fileExtension)%string|];
       cbn; reflexivity. }
  cbv zeta.
  destruct (expectedFilename options (asPropertySchema option) fileExtension filename docName
            =? filename ++ expectedExtension options fileExtension)%string;
    destruct ext as [e|]; [destruct (extensionString e =? fileExtension)%string| |
                           destruct (extensionString e =? fileExtension)%string|];
    cbn; reflexivity.
Qed.

Lemma extensionCheck_messages options fileExtension :
  Forall (fun r => messageId r = MATCH_EXTENSION) (extensionCheck options fileExtension).
Proof.
  unfold extensionCheck.
  destruct (Config.fileExtension options) as [e|]; [|constructor].
  destruct (extensionString e =? fileExtension)%string; repeat constructor.
Qed.

Lemma styleCheck_messages options fileExtension filename definitions :
  Forall (fun r => messageId r = MATCH_STYLE)
    (styleCheck options fileExtension filename definitions).
Proof.
  unfold styleCheck.
  destruct (node definitions) as [n|]; [|constructor].
  destruct (nameValue n) as [docName|]; [|constructor].
  destruct (truthy docName); [|constructor].
  destruct (lookupOption options (docTypeOf n)) as [option|]; [|constructor].
  cbv zeta.
  match goal with |- context [if ?b then _ else _] => destruct b end;
    repeat constructor.
Qed.

Lemma withMessage_all m reports :
  Forall (fun r => messageId r = m) reports -> withMessage m reports = reports.
Proof.
  induction 1 as [|r rs Hr _ IH]; [reflexivity|].
  unfold withMessage in *. cbn. rewrite Hr, IH.
  destruct m; reflexivity.
Qed.

Lemma withMessage_none m m' reports :
  m <> m' -> Forall (fun r => messageId r = m') reports -> withMessage m reports = [].
Proof.
  intros Hne. induction 1 as [|r rs Hr _ IH]; [reflexivity|].
  unfold withMessage in *. cbn. rewrite Hr, IH.
  destruct m, m'; try reflexivity; congruence.
Qed.

Lemma withMessage_app m a b :
  withMessage m (a ++ b) = withMessage m a ++ withMessage m b.
Proof. unfold withMessage. apply filter_app. Qed.

Lemma Document_extension_reports options fileExtension filename definitions :
  withMessage MATCH_EXTENSION (Document options fileExtension filename definitions) =
  extensionCheck options fileExtension.
Proof.
  rewrite Document_checks, withMessage_app.
  rewrite (withMessage_all _ _ (extensionCheck_messages _ _)).
  rewrite (withMessage_none MATCH_EXTENSION MATCH_STYLE);
    [apply app_nil_r | discriminate | apply styleCheck_messages].
Qed.

Lemma Document_style_reports options fileExtension filename definitions :
  withMessage MATCH_STYLE (Document options fileExtension filename definitions) =
  styleCheck options fileExtension filename definitions.
Proof.
  rewrite Document_checks, withMessage_app.
  rewrite (withMessage_all _ _ (styleCheck_messages _ _ _ _)).
  rewrite (withMessage_none MATCH_STYLE MATCH_EXTENSION);
    [reflexivity | discriminate | apply extensionCheck_messages].
Qed.

(** ** The style check *)

(** C1, as the spec states it, at one input: the expected filename
    [UserById.graphql] differs from the actual filename [UserById.gql], a
    policy is configured for queries, and yet no MATCH_STYLE report is made;
    and when one is made, its [filename] parameter carries the configured
    extension, not the file's. *)
Lemma C1_actual_extension_counterexample :
  let options := withExtension graphql (only TQuery (AsString (Style PascalCase))) in
  let definitions := [OperationDefinition OpQuery (Some "UserById")] in
  (expectedFilename options (asPropertySchema (AsString (Style PascalCase)))
     ".gql" "UserById" "UserById" = "UserById.graphql"
   /\ "UserById.graphql" <> ("UserById" ++ ".gql")%string
   /\ withMessage MATCH_STYLE (Document options ".gql" "UserById" definitions) = [])
  /\ (withMessage MATCH_STYLE (Document options ".gql" "user-by-id" definitions)
      = [styleReport "UserById.graphql" "user-by-id.graphql"]
      /\ param "filename" (data (styleReport "UserById.graphql" "user-by-id.graphql"))
         <> Some ("user-by-id" ++ ".gql")%string).
Proof.
  cbv zeta. repeat split; try reflexivity; discriminate.
Qed.

(** C1 (amended): when the governing definition has a name and its type has
    a configured policy, the expected filename is compared with
    [filename + expectedExtension], the basename followed by the effective
    extension; exactly when the two differ, one MATCH_STYLE report is made,
    with that string as [filename] and the expected filename as
    [expectedFilename]. *)
Theorem C1_style_check options fileExtension filename definitions n docName configured :
  node definitions = Some n ->
  nameValue n = Some docName ->
  truthy docName = true ->
  lookupOption options (docTypeOf n) = Some configured ->
  let expected :=
    expectedFilename options (asPropertySchema configured) fileExtension filename docName in
  let actual := (filename ++ expectedExtension options fileExtension)%string in
  withMessage MATCH_STYLE (Document options fileExtension filename definitions) =
    (if (expected =? actual)%string then []
     else [{| loc := REPORT_ON_FIRST_CHARACTER; messageId := MATCH_STYLE;
              data := [("expectedFilename", expected); ("filename", actual)] |}])
  /\ (expected <> actual ->
      exists r,
        withMessage MATCH_STYLE (Document options fileExtension filename definitions) = [r]
        /\ param "filename" (data r) = Some actual
        /\ param "expectedFilename" (data r) = Some expected)
  /\ (Config.fileExtension options = None -> actual = (filename ++ fileExtension)%string).
Proof.
  intros Hnode Hname Htruthy Hopt expected actual.
  assert (Hrep :
    withMessage MATCH_STYLE (Document options fileExtension filename definitions) =
    if (expected =? actual)%string then [] else [styleReport expected actual]).
  { rewrite Document_style_reports. unfold styleCheck.
    rewrite Hnode, Hname, Htruthy, Hopt. reflexivity. }
  split; [exact Hrep|split].
  - intros Hne. exists (styleReport expected actual).
    rewrite Hrep. apply String.eqb_neq in Hne. rewrite Hne.
    repeat split.
  - intros Hnone. unfold actual, expectedExtension. rewrite Hnone. reflexivity.
Qed.

Lemma C1_style_check_witness :
  withMessage MATCH_STYLE
    (Document (only TQuery (AsString (Style PascalCase))) ".gql" "user-by-id"
       [OperationDefinition OpQuery (Some "UserById")])
  = [{| loc := REPORT_ON_FIRST_CHARACTER; messageId := MATCH_STYLE;
        data := [("expectedFilename", "UserById.gql"); ("filename", "user-by-id.gql")] |}].
Proof.
  exact (proj1 (C1_style_check (only TQuery (AsString (Style PascalCase)))
                  ".gql" "user-by-id" [OperationDefinition OpQuery (Some "UserById")]
                  (OperationDefinition OpQuery (Some "UserById")) "UserById"
                  (AsString (Style PascalCase))
                  eq_refl eq_refl eq_refl eq_refl)).
Defined.

(** ** The expected filename *)

Lemma append_assoc (a b c : string) : ((a ++ b) ++ c = a ++ (b ++ c))%string.
Proof. induction a as [|x a IH]; cbn; [reflexivity | now rewrite IH]. Qed.

Lemma append_length (a b : string) :
  String.length (a ++ b)%string = String.length a + String.length b.
Proof. induction a as [|x a IH]; cbn; [reflexivity | now rewrite IH]. Qed.

Lemma append_cancel_l (p a b : string) : (p ++ a = p ++ b)%string -> a = b.
Proof.
  induction p as [|x p IH]; cbn; intros H; [exact H|].
  injection H as H. exact (IH H).
Qed.

Lemma append_cancel_r (r a b : string) : (a ++ r = b ++ r)%string -> a = b.
Proof.
  revert b. induction a as [|x a IH]; intros [|y b] H; cbn in H.
  - reflexivity.
  - exfalso. apply (f_equal String.length) in H. cbn in H.
    rewrite append_length in H. lia.
  - exfalso. apply (f_equal String.length) in H. cbn in H.
    rewrite append_length in H. lia.
  - injection H as Hx H. subst y. f_equal. exact (IH _ H).
Qed.

(** [o || ''] is [o], or the empty string when [o] is not set. *)
Lemma orElse_empty (o : option string) :
  orElse o "" = match o with Some s => s | None => "" end.
Proof.
  destruct o as [s|]; [|reflexivity].
  destruct s; reflexivity.
Qed.

Lemma extensionString_truthy e : truthy (extensionString e) = true.
Proof. destruct e; reflexivity. Qed.

Lemma expectedExtension_cases options fileExtension :
  expectedExtension options fileExtension =
  match Config.fileExtension options with
  | Some e => extensionString e
  | None => fileExtension
  end.
Proof.
  unfold expectedExtension.
  destruct (Config.fileExtension options) as [e|]; cbn; [|reflexivity].
  now rewrite extensionString_truthy.
Qed.

Lemma expectedFilename_flat options policy fileExtension filename docName :
  expectedFilename options policy fileExtension filename docName =
  (match prefix policy with Some s => s | None => "" end
   ++ match style policy with
      | Some s => styledName s docName
      | None => filename
      end
   ++ match suffix policy with Some s => s | None => "" end
   ++ match Config.fileExtension options with
      | Some e => extensionString e
      | None => fileExtension
      end)%string.
Proof.
  unfold expectedFilename.
  rewrite !orElse_empty, expectedExtension_cases.
  destruct (style policy) as [s|]; apply append_assoc.
Qed.

(** C5: the expected filename is the prefix (or nothing), the base, the
    suffix (or nothing) and the effective extension, in this order; the
    effective extension is the configured one when one is configured and the
    file's own otherwise. *)
Theorem C5_expected_filename_composition options policy fileExtension filename docName :
  let orEmpty (o : option string) := match o with Some s => s | None => "" end in
  let base :=
    match style policy with
    | Some matchDocumentStyle => docName
    | Some (Style s) => convertCase s docName
    | None => filename
    end in
  let effectiveExtension :=
    match Config.fileExtension options with
    | Some e => extensionString e
    | None => fileExtension
    end in
  expectedFilename options policy fileExtension filename docName =
  (orEmpty (prefix policy) ++ base ++ orEmpty (suffix policy) ++ effectiveExtension)%string.
Proof.
  cbv zeta. rewrite expectedFilename_flat.
  destruct (style policy) as [[s|]|]; reflexivity.
Qed.

(** C2: a policy without a style keeps the file's basename as the base: the
    expected filename is the prefix, the basename as it is, the suffix and
    the effective extension. *)
Theorem C2_unset_style_keeps_basename options policy fileExtension filename docName :
  style policy = None ->
  expectedFilename options policy fileExtension filename docName =
  (match prefix policy with Some s => s | None => "" end
   ++ filename
   ++ match suffix policy with Some s => s | None => "" end
   ++ match Config.fileExtension options with
      | Some e => extensionString e
      | None => fileExtension
      end)%string.
Proof.
  intros Hstyle.
  rewrite expectedFilename_flat, Hstyle. reflexivity.
Qed.

Lemma C2_unset_style_keeps_basename_witness :
  expectedFilename defaultOptions
    {| style := None; suffix := Some ".fragment"; prefix := None |}
    ".graphql" "User_Fields" "userFields" = "User_Fields.fragment.graphql".
Proof.
  exact (C2_unset_style_keeps_basename defaultOptions
           {| style := None; suffix := Some ".fragment"; prefix := None |}
           ".graphql" "User_Fields" "userFields" eq_refl).
Defined.

(** A policy without a style and with a non-empty prefix expects the prefix in
    front of the basename the file already has, so its expected filename
    never equals [filename + expectedExtension]. *)
Remark unset_style_prefix_never_matches options policy fileExtension filename docName p :
  style policy = None -> prefix policy = Some p -> p <> "" ->
  expectedFilename options policy fileExtension filename docName <>
  (filename ++ expectedExtension options fileExtension)%string.
Proof.
  intros Hstyle Hprefix Hp Heq.
  rewrite expectedFilename_flat, Hstyle, Hprefix, expectedExtension_cases in Heq.
  apply (f_equal String.length) in Heq.
  rewrite !append_length in Heq.
  destruct p; [congruence | cbn in Heq; lia].
Qed.

(** C8: under [matchDocumentStyle] the base is the document's name as it is
    written; this differs from the base of the same policy without a style,
    the file's basename, whenever the two names differ. *)
Theorem C8_matchDocumentStyle_is_identity options policy fileExtension filename docName :
  style policy = Some matchDocumentStyle ->
  expectedFilename options policy fileExtension filename docName =
  (match prefix policy with Some s => s | None => "" end
   ++ docName
   ++ match suffix policy with Some s => s | None => "" end
   ++ match Config.fileExtension options with
      | Some e => extensionString e
      | None => fileExtension
      end)%string
  /\ styledName matchDocumentStyle docName = docName
  /\ (docName <> filename ->
      expectedFilename options policy fileExtension filename docName <>
      expectedFilename options
        {| style := None; suffix := suffix policy; prefix := prefix policy |}
        fileExtension filename docName).
Proof.
  intros Hstyle.
  assert (Hm := expectedFilename_flat options policy fileExtension filename docName).
  assert (Hu := expectedFilename_flat options
                  {| style := None; suffix := suffix policy; prefix := prefix policy |}
                  fileExtension filename docName).
  cbn [style suffix prefix] in Hu. rewrite Hstyle in Hm. cbn [styledName] in Hm.
  split; [exact Hm|split; [reflexivity|]].
  intros Hne Heq. rewrite Hm, Hu in Heq.
  apply append_cancel_l in Heq.
  rewrite <- !append_assoc in Heq.
  apply append_cancel_r in Heq. apply append_cancel_r in Heq.
  exact (Hne Heq).
Qed.

Lemma C8_matchDocumentStyle_is_identity_witness :
  expectedFilename defaultOptions
    {| style := Some matchDocumentStyle; suffix := None; prefix := Some "query." |}
    ".gql" "user_by_id" "User_byID" = "query.User_byID.gql".
Proof.
  exact (proj1 (C8_matchDocumentStyle_is_identity defaultOptions
                  {| style := Some matchDocumentStyle; suffix := None;
                     prefix := Some "query." |}
                  ".gql" "user_by_id" "User_byID" eq_refl)).
Defined.

(** ** The governing definition *)

Lemma find_first {A} (f : A -> bool) (pre : list A) (d : A) (post : list A) :
  Forall (fun x => f x = false) pre -> f d = true ->
  find f (pre ++ d :: post) = Some d.
Proof.
  induction 1 as [|x pre Hx _ IH]; intros Hd; cbn.
  - now rewrite Hd.
  - rewrite Hx. exact (IH Hd).
Qed.

Lemma find_absent {A} (f : A -> bool) (l : list A) :
  Forall (fun x => f x = false) l -> find f l = None.
Proof.
  induction 1 as [|x l Hx _ IH]; cbn; [reflexivity|].
  now rewrite Hx.
Qed.

(** C3: the governing definition is the first operation definition of the
    document when there is one, whatever precedes it (fragments included),
    and the first fragment definition when the document has no operation. *)
Theorem C3_operation_before_fragment (definitions pre post : list DefinitionNode)
  (d : DefinitionNode) :
  definitions = pre ++ d :: post ->
  (isOperation d = true ->
   Forall (fun x => isOperation x = false) pre ->
   node definitions = Some d)
  /\ (isFragment d = true ->
      Forall (fun x => isFragment x = false) pre ->
      Forall (fun x => isOperation x = false) definitions ->
      node definitions = Some d).
Proof.
  intros ->. unfold node, firstOperation, firstFragment. split.
  - intros Hd Hpre.
    now rewrite (find_first isOperation pre d post Hpre Hd).
  - intros Hd Hpre Hnone.
    rewrite (find_absent isOperation _ Hnone).
    exact (find_first isFragment pre d post Hpre Hd).
Qed.

Lemma C3_operation_before_fragment_witness :
  node [FragmentDefinition "UserFields"; OtherDefinition;
        OperationDefinition OpQuery (Some "me");
        OperationDefinition OpMutation (Some "addAlert")]
  = Some (OperationDefinition OpQuery (Some "me"))
  /\ node [OtherDefinition; FragmentDefinition "UserFields"; FragmentDefinition "Other"]
     = Some (FragmentDefinition "UserFields").
Proof.
  split.
  - apply (proj1 (C3_operation_before_fragment _
                    [FragmentDefinition "UserFields"; OtherDefinition]
                    [OperationDefinition OpMutation (Some "addAlert")]
                    (OperationDefinition OpQuery (Some "me")) eq_refl)).
    + reflexivity.
    + repeat constructor.
  - apply (proj2 (C3_operation_before_fragment _
                    [OtherDefinition] [FragmentDefinition "Other"]
                    (FragmentDefinition "UserFields") eq_refl)).
    + reflexivity.
    + repeat constructor.
    + repeat constructor.
Defined.

(** ** Documents without operations and fragments *)

(** C4, as the spec states it, at one input: with [fileExtension] configured
    as [.graphql], the file [post.gql] holding only a type definition gets a
    MATCH_EXTENSION report. *)
Lemma C4_extension_still_checked_counterexample :
  Forall (fun d => isOperation d = false /\ isFragment d = false) [OtherDefinition]
  /\ Document (onlyExtension graphql) ".gql" "post" [OtherDefinition] <> [].
Proof.
  split; [repeat constructor | discriminate].
Qed.

(** C4 (amended): for a document without operation and fragment definitions
    the visitor makes no MATCH_STYLE report; its reports are those of the
    extension check alone: one MATCH_EXTENSION report when [fileExtension] is
    configured and differs from the file's extension, none otherwise. *)
Theorem C4_no_governing_definition options fileExtension filename definitions :
  Forall (fun d => isOperation d = false /\ isFragment d = false) definitions ->
  withMessage MATCH_STYLE (Document options fileExtension filename definitions) = []
  /\ Document options fileExtension filename definitions =
     match Config.fileExtension options with
     | Some e =>
         if (extensionString e =? fileExtension)%string then []
         else [{| loc := REPORT_ON_FIRST_CHARACTER; messageId := MATCH_EXTENSION;
                  data := [("fileExtension", fileExtension);
                           ("expectedFileExtension", extensionString e)] |}]
     | None => []
     end.
Proof.
  intros Hnone.
  assert (Hnode : node definitions = None).
  { unfold node, firstOperation, firstFragment.
    rewrite (find_absent isOperation), (find_absent isFragment); [reflexivity| |];
      eapply Forall_impl; [|exact Hnone| |exact Hnone]; cbn; intros a [H1 H2]; assumption. }
  assert (Hstyle : styleCheck options fileExtension filename definitions = []).
  { unfold styleCheck. now rewrite Hnode. }
  split.
  - now rewrite Document_style_reports.
  - rewrite Document_checks, Hstyle, app_nil_r. reflexivity.
Qed.

Lemma C4_no_governing_definition_witness :
  Document (withExtension gql (only TQuery (AsString (Style kebab_case))))
    ".gql" "post" [OtherDefinition; OtherDefinition] = [].
Proof.
  assert (H : Forall (fun d => isOperation d = false /\ isFragment d = false)
                [OtherDefinition; OtherDefinition]) by repeat constructor.
  exact (proj2 (C4_no_governing_definition
                  (withExtension gql (only TQuery (AsString (Style kebab_case))))
                  ".gql" "post" [OtherDefinition; OtherDefinition] H)).
Defined.

(** ** The extension check *)

(** C6: the MATCH_EXTENSION reports of a pass depend on the configured and
    the actual extension only: there is one exactly when an extension is
    configured and differs from the file's, with the file's extension as
    [fileExtension] and the configured one as [expectedFileExtension]; a pass
    can make this report and a MATCH_STYLE report together. *)
Theorem C6_extension_check :
  (forall options fileExtension filename definitions,
     withMessage MATCH_EXTENSION (Document options fileExtension filename definitions) =
     match Config.fileExtension options with
     | Some e =>
         if (extensionString e =? fileExtension)%string then []
         else [{| loc := REPORT_ON_FIRST_CHARACTER; messageId := MATCH_EXTENSION;
                  data := [("fileExtension", fileExtension);
                           ("expectedFileExtension", extensionString e)] |}]
     | None => []
     end)
  /\ Document (withExtension graphql (only TQuery (AsString (Style PascalCase))))
       ".gql" "user-by-id" [OperationDefinition OpQuery (Some "UserById")]
     = [{| loc := REPORT_ON_FIRST_CHARACTER; messageId := MATCH_EXTENSION;
           data := [("fileExtension", ".gql"); ("expectedFileExtension", ".graphql")] |};
        {| loc := REPORT_ON_FIRST_CHARACTER; messageId := MATCH_STYLE;
           data := [("expectedFilename", "UserById.graphql");
                    ("filename", "user-by-id.graphql")] |}].
Proof.
  split; [|reflexivity].
  intros. rewrite Document_extension_reports. reflexivity.
Qed.

(** ** Skipped style checks *)

(** C7: no MATCH_STYLE report is made when the governing definition has no
    name, whatever else the document holds, nor when no policy is configured
    for the governing definition's type. *)
Theorem C7_style_check_skipped options fileExtension filename definitions n :
  node definitions = Some n ->
  nameValue n = None \/ lookupOption options (docTypeOf n) = None ->
  withMessage MATCH_STYLE (Document options fileExtension filename definitions) = [].
Proof.
  intros Hnode H. rewrite Document_style_reports. unfold styleCheck. rewrite Hnode.
  destruct H as [H|H]; rewrite H; [reflexivity|].
  destruct (nameValue n) as [docName|]; [|reflexivity].
  destruct (truthy docName); reflexivity.
Qed.

Lemma C7_style_check_skipped_witness :
  withMessage MATCH_STYLE
    (Document
       {| Config.fileExtension := None;
          Config.query := Some (AsString (Style PascalCase));
          Config.mutation := None; Config.subscription := None;
          Config.fragment := Some (AsString (Style PascalCase)) |}
       ".gql" "not-the-name"
       [FragmentDefinition "UserFields"; OperationDefinition OpQuery None]) = []
  /\ withMessage MATCH_STYLE
       (Document (only TFragment (AsString (Style PascalCase))) ".gql" "not-the-name"
          [OperationDefinition OpMutation (Some "addAlert")]) = [].
Proof.
  split.
  - apply (C7_style_check_skipped _ _ _ _ (OperationDefinition OpQuery None)).
    + reflexivity.
    + left. reflexivity.
  - apply (C7_style_check_skipped _ _ _ _
             (OperationDefinition OpMutation (Some "addAlert"))).
    + reflexivity.
    + right. reflexivity.
Defined.

(** ** Number and place of the reports *)

Lemma extensionCheck_length options fileExtension :
  List.length (extensionCheck options fileExtension) <= 1.
Proof.
  unfold extensionCheck.
  destruct (Config.fileExtension options) as [e|]; [|cbn; lia].
  destruct (extensionString e =? fileExtension)%string; cbn; lia.
Qed.

Lemma styleCheck_length options fileExtension filename definitions :
  List.length (styleCheck options fileExtension filename definitions) <= 1.
Proof.
  unfold styleCheck.
  destruct (node definitions) as [n|]; [|cbn; lia].
  destruct (nameValue n) as [docName|]; [|cbn; lia].
  destruct (truthy docName); [|cbn; lia].
  destruct (lookupOption options (docTypeOf n)) as [option|]; [|cbn; lia].
  cbv zeta.
  match goal with |- context [if ?b then _ else _] => destruct b end; cbn; lia.
Qed.

Lemma extensionCheck_loc options fileExtension :
  Forall (fun r => loc r = REPORT_ON_FIRST_CHARACTER) (extensionCheck options fileExtension).
Proof.
  unfold extensionCheck.
  destruct (Config.fileExtension options) as [e|]; [|constructor].
  destruct (extensionString e =? fileExtension)%string; repeat constructor.
Qed.

Lemma styleCheck_loc options fileExtension filename definitions :
  Forall (fun r => loc r = REPORT_ON_FIRST_CHARACTER)
    (styleCheck options fileExtension filename definitions).
Proof.
  unfold styleCheck.
  destruct (node definitions) as [n|]; [|constructor].
  destruct (nameValue n) as [docName|]; [|constructor].
  destruct (truthy docName); [|constructor].
  destruct (lookupOption options (docTypeOf n)) as [option|]; [|constructor].
  cbv zeta.
  match goal with |- context [if ?b then _ else _] => destruct b end;
    repeat constructor.
Qed.

(** C10: one pass makes at most one MATCH_EXTENSION report and at most one
    MATCH_STYLE report, hence at most two reports, and every report is placed
    at [REPORT_ON_FIRST_CHARACTER]. *)
Theorem C10_at_most_one_report_per_check options fileExtension filename definitions :
  let reports := Document options fileExtension filename definitions in
  List.length (withMessage MATCH_EXTENSION reports) <= 1
  /\ List.length (withMessage MATCH_STYLE reports) <= 1
  /\ List.length reports <= 2
  /\ Forall (fun r => loc r = REPORT_ON_FIRST_CHARACTER) reports
  /\ Forall (fun r => messageId r = MATCH_EXTENSION \/ messageId r = MATCH_STYLE) reports.
Proof.
  cbv zeta.
  rewrite Document_extension_reports, Document_style_reports, Document_checks.
  pose proof (extensionCheck_length options fileExtension) as He.
  pose proof (styleCheck_length options fileExtension filename definitions) as Hs.
  repeat split; try assumption.
  - rewrite length_app. lia.
  - apply Forall_app. split; [apply extensionCheck_loc | apply styleCheck_loc].
  - apply Forall_app. split.
    + eapply Forall_impl; [|apply extensionCheck_messages]. cbn. intros; now left.
    + eapply Forall_impl; [|apply styleCheck_messages]. cbn. intros; now right.
Qed.

(** ** Case conversion twice *)








(** *** Strings without case boundaries *)




(** *** Cutting a joined list of words *)




(** *** The words of a name are clean *)







(** *** The words of a converted name *)







(** *** camelCase and PascalCase: names the conversion keeps *)





(** A string without separators is the concatenation of its words. *)





(** Every word but the first starts at a case boundary, with an upper-case
    letter; the first starts with the first character of the string. *)




(** Words that capitalizing, or lower-casing, leaves as they are. *)











(** What camelCase and PascalCase return has no separator and starts as
    the style asks. *)







(** ** Idempotence of the conversion *)




(** * Further properties of the visitor *)

(** ** Order of the reports *)

(** X1: the reports of a pass come in the order of the two checks: the
    MATCH_EXTENSION report, if any, before the MATCH_STYLE report, if any. *)
Theorem X1_extension_report_first options fileExtension filename definitions :
  let reports := Document options fileExtension filename definitions in
  reports = withMessage MATCH_EXTENSION reports ++ withMessage MATCH_STYLE reports.
Proof.
  cbv zeta.
  rewrite Document_extension_reports, Document_style_reports.
  apply Document_checks.
Qed.

(** ** What the visitor reads of the document and of the options *)

Lemma isFragment_not_operation n : isFragment n = true -> isOperation n = false.
Proof. destruct n; cbn; congruence. Qed.

Lemma node_governs definitions n :
  node definitions = Some n ->
  (isOperation n = true \/ isFragment n = true) /\ In n definitions.
Proof.
  unfold node, firstOperation, firstFragment.
  destruct (find isOperation definitions) as [m|] eqn:Hop.
  - intros [= ->]. apply find_some in Hop. tauto.
  - intros Hfr. apply find_some in Hfr. tauto.
Qed.

Lemma node_singleton definitions n :
  node definitions = Some n -> node [n] = Some n.
Proof.
  intros H. destruct (node_governs _ _ H) as [[Hop | Hfr] _];
    unfold node, firstOperation, firstFragment; cbn.
  - now rewrite Hop.
  - now rewrite (isFragment_not_operation n Hfr), Hfr.
Qed.

Lemma Document_reads_node options fileExtension filename definitions definitions' :
  node definitions = node definitions' ->
  Document options fileExtension filename definitions =
  Document options fileExtension filename definitions'.
Proof. unfold Document. intros ->. reflexivity. Qed.

(** X2: the reports for a document are those for its governing definition
    alone: every other definition, before or after it, of any kind, named or
    not, changes nothing. *)
Theorem X2_governing_definition_alone options fileExtension filename definitions n :
  node definitions = Some n ->
  Document options fileExtension filename definitions =
  Document options fileExtension filename [n].
Proof.
  intros H. apply Document_reads_node.
  now rewrite H, (node_singleton definitions n H).
Qed.

Lemma X2_governing_definition_alone_witness :
  Document (only TQuery (AsString (Style PascalCase))) ".gql" "user-by-id"
    [FragmentDefinition "user_by_id"; OtherDefinition;
     OperationDefinition OpQuery (Some "UserById");
     OperationDefinition OpQuery (Some "user-by-id")]
  = Document (only TQuery (AsString (Style PascalCase))) ".gql" "user-by-id"
      [OperationDefinition OpQuery (Some "UserById")].
Proof.
  exact (X2_governing_definition_alone
           (only TQuery (AsString (Style PascalCase))) ".gql" "user-by-id"
           [FragmentDefinition "user_by_id"; OtherDefinition;
            OperationDefinition OpQuery (Some "UserById");
            OperationDefinition OpQuery (Some "user-by-id")]
           (OperationDefinition OpQuery (Some "UserById")) eq_refl).
Defined.

Lemma expectedExtension_reads_fileExtension o o' fileExtension :
  Config.fileExtension o = Config.fileExtension o' ->
  expectedExtension o fileExtension = expectedExtension o' fileExtension.
Proof. unfold expectedExtension. now intros ->. Qed.

Lemma expectedFilename_reads_fileExtension o o' policy fileExtension filename docName :
  Config.fileExtension o = Config.fileExtension o' ->
  expectedFilename o policy fileExtension filename docName =
  expectedFilename o' policy fileExtension filename docName.
Proof.
  intros H. unfold expectedFilename.
  now rewrite (expectedExtension_reads_fileExtension o o' fileExtension H).
Qed.

(** X3: of the options, a pass reads [fileExtension] and the policy of the
    governing definition's type only: two configurations that agree on these
    give the same reports.  So the [fragment] policy plays no part for a
    document that holds an operation. *)
Theorem X3_only_governing_policy o o' fileExtension filename definitions n :
  node definitions = Some n ->
  Config.fileExtension o = Config.fileExtension o' ->
  lookupOption o (docTypeOf n) = lookupOption o' (docTypeOf n) ->
  Document o fileExtension filename definitions =
  Document o' fileExtension filename definitions.
Proof.
  intros Hnode Hext Hpol.
  rewrite !Document_checks. f_equal.
  - unfold extensionCheck. now rewrite Hext.
  - unfold styleCheck. rewrite Hnode, Hpol.
    destruct (nameValue n) as [docName|]; [|reflexivity].
    destruct (truthy docName); [|reflexivity].
    destruct (lookupOption o' (docTypeOf n)) as [v|]; [|reflexivity].
    cbv zeta.
    rewrite (expectedFilename_reads_fileExtension o o' _ _ _ _ Hext).
    now rewrite (expectedExtension_reads_fileExtension o o' _ Hext).
Qed.

Lemma X3_only_governing_policy_witness :
  Document
    {| Config.fileExtension := None;
       Config.query := Some (AsString (Style kebab_case));
       Config.mutation := Some (AsString (Style PascalCase));
       Config.subscription := None;
       Config.fragment := Some (AsString (Style UPPER_CASE)) |}
    ".graphql" "me"
    [FragmentDefinition "UserFields"; OperationDefinition OpQuery (Some "me")]
  = Document (only TQuery (AsString (Style kebab_case))) ".graphql" "me"
      [FragmentDefinition "UserFields"; OperationDefinition OpQuery (Some "me")].
Proof.
  exact (X3_only_governing_policy _ (only TQuery (AsString (Style kebab_case)))
           ".graphql" "me"
           [FragmentDefinition "UserFields"; OperationDefinition OpQuery (Some "me")]
           (OperationDefinition OpQuery (Some "me")) eq_refl eq_refl eq_refl).
Defined.


(** ** Names the style check takes as missing *)

(** X5: a governing definition whose name is the empty string is treated as
    one without a name: the pass makes no MATCH_STYLE report, and a fragment
    named further down is not consulted in its place. *)
Theorem X5_empty_name_skipped options fileExtension filename definitions n :
  node definitions = Some n ->
  nameValue n = Some "" ->
  withMessage MATCH_STYLE (Document options fileExtension filename definitions) = [].
Proof.
  intros Hnode Hname. rewrite Document_style_reports.
  unfold styleCheck. now rewrite Hnode, Hname.
Qed.

Lemma X5_empty_name_skipped_witness :
  withMessage MATCH_STYLE
    (Document
       {| Config.fileExtension := None;
          Config.query := Some (AsString (Style PascalCase));
          Config.mutation := None; Config.subscription := None;
          Config.fragment := Some (AsString (Style PascalCase)) |}
       ".gql" "not-the-name"
       [OperationDefinition OpQuery (Some ""); FragmentDefinition "UserFields"]) = [].
Proof.
  exact (X5_empty_name_skipped _ ".gql" "not-the-name"
           [OperationDefinition OpQuery (Some ""); FragmentDefinition "UserFields"]
           (OperationDefinition OpQuery (Some "")) eq_refl eq_refl).
Defined.

(** ** Which basenames the style check accepts *)

Lemma orElse_orEmpty (o : option string) : orElse o "" = orEmpty o.
Proof. apply orElse_empty. Qed.

(** The expected filename is a stem, which does not depend on any
    extension, followed by the effective extension. *)
Lemma expectedFilename_stem options policy fileExtension filename docName :
  expectedFilename options policy fileExtension filename docName =
  ((orEmpty (prefix policy)
    ++ match style policy with
       | Some s => styledName s docName
       | None => filename
       end
    ++ orEmpty (suffix policy))
   ++ expectedExtension options fileExtension)%string.
Proof.
  unfold expectedFilename. rewrite !orElse_orEmpty.
  destruct (style policy) as [s|]; now rewrite !append_assoc.
Qed.

Lemma styleCheck_governed options fileExtension filename definitions n docName v :
  node definitions = Some n ->
  nameValue n = Some docName ->
  truthy docName = true ->
  lookupOption options (docTypeOf n) = Some v ->
  styleCheck options fileExtension filename definitions =
  let expected :=
    expectedFilename options (asPropertySchema v) fileExtension filename docName in
  let actual := (filename ++ expectedExtension options fileExtension)%string in
  if (expected =? actual)%string then [] else [styleReport expected actual].
Proof.
  intros Hnode Hname Htruthy Hpol. unfold styleCheck.
  now rewrite Hnode, Hname, Htruthy, Hpol.
Qed.

Lemma if_nil_iff {A} (b : bool) (x : A) : (if b then [] else [x]) = [] <-> b = true.
Proof. destruct b; split; congruence. Qed.

(** X6: under a policy with a style, the basename the style check accepts is
    the prefix, the styled name and the suffix, and nothing else; the file's
    extension and the configured extension play no part in this check. *)
Theorem X6_accepted_basename options fileExtension filename definitions n docName v s :
  node definitions = Some n ->
  nameValue n = Some docName ->
  truthy docName = true ->
  lookupOption options (docTypeOf n) = Some v ->
  style (asPropertySchema v) = Some s ->
  withMessage MATCH_STYLE (Document options fileExtension filename definitions) = []
  <->
  filename = (orEmpty (prefix (asPropertySchema v)) ++ styledName s docName
              ++ orEmpty (suffix (asPropertySchema v)))%string.
Proof.
  intros Hnode Hname Htruthy Hpol Hstyle.
  rewrite Document_style_reports.
  rewrite (styleCheck_governed _ _ _ _ n docName v Hnode Hname Htruthy Hpol).
  cbv zeta. rewrite if_nil_iff, String.eqb_eq, expectedFilename_stem, Hstyle.
  split.
  - intros H. apply append_cancel_r in H. now symmetry.
  - now intros <-.
Qed.

Lemma X6_accepted_basename_witness :
  withMessage MATCH_STYLE
    (Document
       (withExtension graphql
          (only TFragment
             (AsObject {| style := Some matchDocumentStyle; suffix := Some ".fragment";
                          prefix := None |})))
       ".gql" "UserFields.fragment" [FragmentDefinition "UserFields"]) = [].
Proof.
  apply (proj2 (X6_accepted_basename
                  (withExtension graphql
                     (only TFragment
                        (AsObject {| style := Some matchDocumentStyle;
                                     suffix := Some ".fragment"; prefix := None |})))
                  ".gql" "UserFields.fragment"
                  [FragmentDefinition "UserFields"] (FragmentDefinition "UserFields")
                  "UserFields"
                  (AsObject {| style := Some matchDocumentStyle;
                               suffix := Some ".fragment"; prefix := None |})
                  matchDocumentStyle eq_refl eq_refl eq_refl eq_refl eq_refl)).
  reflexivity.
Defined.

Lemma length_zero_empty (s : string) : String.length s = 0 -> s = "".
Proof. destruct s; [reflexivity | discriminate]. Qed.

(** X7: under a policy without a style, the style check accepts the file
    exactly when the policy has neither a prefix nor a suffix to add (each is
    unset or empty); with a non-empty prefix or suffix every file of a
    governed document gets a MATCH_STYLE report, whatever its name. *)
Theorem X7_policy_without_style options fileExtension filename definitions n docName v :
  node definitions = Some n ->
  nameValue n = Some docName ->
  truthy docName = true ->
  lookupOption options (docTypeOf n) = Some v ->
  style (asPropertySchema v) = None ->
  withMessage MATCH_STYLE (Document options fileExtension filename definitions) = []
  <->
  orEmpty (prefix (asPropertySchema v)) = "" /\ orEmpty (suffix (asPropertySchema v)) = "".
Proof.
  intros Hnode Hname Htruthy Hpol Hstyle.
  rewrite Document_style_reports.
  rewrite (styleCheck_governed _ _ _ _ n docName v Hnode Hname Htruthy Hpol).
  cbv zeta. rewrite if_nil_iff, String.eqb_eq, expectedFilename_stem, Hstyle.
  split.
  - intros H. apply append_cancel_r in H.
    apply (f_equal String.length) in H. rewrite !append_length in H.
    split; apply length_zero_empty; lia.
  - intros [-> ->]. cbn. f_equal.
    clear. induction filename as [|c f IH]; cbn; [reflexivity | now rewrite IH].
Qed.

Lemma X7_policy_without_style_witness :
  withMessage MATCH_STYLE
    (Document
       (only TFragment
          (AsObject {| style := None; suffix := Some ""; prefix := None |}))
       ".gql" "anything" [FragmentDefinition "UserFields"]) = []
  /\ withMessage MATCH_STYLE
       (Document
          (only TQuery
             (AsObject {| style := None; suffix := None; prefix := Some "query." |}))
          ".graphql" "query.me" [OperationDefinition OpQuery (Some "me")]) <> [].
Proof.
  split.
  - apply (proj2 (X7_policy_without_style
                    (only TFragment
                       (AsObject {| style := None; suffix := Some ""; prefix := None |}))
                    ".gql" "anything"
                    [FragmentDefinition "UserFields"] (FragmentDefinition "UserFields")
                    "UserFields"
                    (AsObject {| style := None; suffix := Some ""; prefix := None |})
                    eq_refl eq_refl eq_refl eq_refl eq_refl)).
    split; reflexivity.
  - intros H.
    apply (proj1 (X7_policy_without_style
                    (only TQuery
                       (AsObject {| style := None; suffix := None;
                                    prefix := Some "query." |}))
                    ".graphql" "query.me"
                    [OperationDefinition OpQuery (Some "me")]
                    (OperationDefinition OpQuery (Some "me")) "me"
                    (AsObject {| style := None; suffix := None;
                                 prefix := Some "query." |})
                    eq_refl eq_refl eq_refl eq_refl eq_refl)) in H.
    destruct H as [H _]. discriminate H.
Defined.

Lemma expectedExtension_idem options fileExtension :
  expectedExtension options (expectedExtension options fileExtension) =
  expectedExtension options fileExtension.
Proof.
  rewrite !expectedExtension_cases.
  destruct (Config.fileExtension options); reflexivity.
Qed.

Lemma extensionCheck_expectedExtension options fileExtension :
  extensionCheck options (expectedExtension options fileExtension) = [].
Proof.
  unfold extensionCheck. rewrite expectedExtension_cases.
  destruct (Config.fileExtension options) as [e|]; [|reflexivity].
  now rewrite String.eqb_refl.
Qed.

(** X8: under a policy with a style, a file named as the MATCH_STYLE report
    asks (the prefix, the styled name and the suffix as basename, the
    effective extension as extension) gets no report at all from the next
    pass, neither MATCH_STYLE nor MATCH_EXTENSION. *)
Theorem X8_expected_name_is_accepted options fileExtension filename definitions
  n docName v s :
  node definitions = Some n ->
  nameValue n = Some docName ->
  truthy docName = true ->
  lookupOption options (docTypeOf n) = Some v ->
  style (asPropertySchema v) = Some s ->
  let stem := (orEmpty (prefix (asPropertySchema v)) ++ styledName s docName
               ++ orEmpty (suffix (asPropertySchema v)))%string in
  expectedFilename options (asPropertySchema v) fileExtension filename docName
  = (stem ++ expectedExtension options fileExtension)%string
  /\ Document options (expectedExtension options fileExtension) stem definitions = [].
Proof.
  intros Hnode Hname Htruthy Hpol Hstyle stem. split.
  - rewrite expectedFilename_stem, Hstyle. reflexivity.
  - rewrite Document_checks, extensionCheck_expectedExtension.
    rewrite (styleCheck_governed _ _ _ _ n docName v Hnode Hname Htruthy Hpol).
    cbv zeta. rewrite expectedFilename_stem, Hstyle.
    fold stem. now rewrite String.eqb_refl.
Qed.

Lemma X8_expected_name_is_accepted_witness :
  Document (withExtension graphql (only TQuery (AsString (Style PascalCase))))
    ".gql" "user-by-id" [OperationDefinition OpQuery (Some "UserById")] <> []
  /\ Document (withExtension graphql (only TQuery (AsString (Style PascalCase))))
       ".graphql" "UserById" [OperationDefinition OpQuery (Some "UserById")] = [].
Proof.
  split; [discriminate|].
  exact (proj2 (X8_expected_name_is_accepted
                  (withExtension graphql (only TQuery (AsString (Style PascalCase))))
                  ".gql" "user-by-id" [OperationDefinition OpQuery (Some "UserById")]
                  (OperationDefinition OpQuery (Some "UserById")) "UserById"
                  (AsString (Style PascalCase)) (Style PascalCase)
                  eq_refl eq_refl eq_refl eq_refl eq_refl)).
Defined.

(** ** What a MATCH_STYLE report says *)

(** X9: in every MATCH_STYLE report the two filenames end with the same
    extension, the effective one; [filename] is the file's basename followed
    by it, and the expected filename differs from it before the extension.
    So the report never asks for a change of extension alone. *)
Theorem X9_style_report_names options fileExtension filename definitions r :
  In r (Document options fileExtension filename definitions) ->
  messageId r = MATCH_STYLE ->
  exists stem,
    param "expectedFilename" (data r)
    = Some (stem ++ expectedExtension options fileExtension)%string
    /\ param "filename" (data r)
       = Some (filename ++ expectedExtension options fileExtension)%string
    /\ stem <> filename.
Proof.
  intros Hin Hmsg. rewrite Document_checks in Hin.
  apply in_app_or in Hin. destruct Hin as [Hin | Hin].
  { pose proof (extensionCheck_messages options fileExtension) as H.
    rewrite Forall_forall in H. specialize (H r Hin). congruence. }
  unfold styleCheck in Hin.
  destruct (node definitions) as [n|]; [|contradiction].
  destruct (nameValue n) as [docName|]; [|contradiction].
  destruct (truthy docName); [|contradiction].
  destruct (lookupOption options (docTypeOf n)) as [v|]; [|contradiction].
  cbv zeta in Hin. rewrite expectedFilename_stem in Hin.
  match type of Hin with
  | In _ (if (?a ++ ?e =? _)%string then _ else _) => set (stem := a) in *
  end.
  destruct (stem ++ expectedExtension options fileExtension
            =? filename ++ expectedExtension options fileExtension)%string eqn:Heq;
    [contradiction|].
  destruct Hin as [<- | []].
  exists stem. repeat split.
  intros ->. rewrite String.eqb_refl in Heq. discriminate.
Qed.

Lemma X9_style_report_names_witness :
  exists stem,
    param "expectedFilename" (data (styleReport "UserById.graphql" "user-by-id.graphql"))
    = Some (stem ++ ".graphql")%string
    /\ param "filename" (data (styleReport "UserById.graphql" "user-by-id.graphql"))
       = Some ("user-by-id" ++ ".graphql")%string
    /\ stem <> "user-by-id".
Proof.
  apply (X9_style_report_names
           (withExtension graphql (only TQuery (AsString (Style PascalCase))))
           ".gql" "user-by-id" [OperationDefinition OpQuery (Some "UserById")]
           (styleReport "UserById.graphql" "user-by-id.graphql")).
  - right. left. reflexivity.
  - reflexivity.
Defined.

(** ** [create] *)

Lemma Document_defaultOptions fileExtension filename definitions :
  Document defaultOptions fileExtension filename definitions = [].
Proof.
  rewrite Document_checks. unfold extensionCheck, styleCheck. cbn [defaultOptions Config.fileExtension app].
  destruct (node definitions) as [n|]; [|reflexivity].
  destruct (nameValue n) as [docName|]; [|reflexivity].
  destruct (truthy docName); [|reflexivity].
  destruct (docTypeOf n); reflexivity.
Qed.

(** X10: without options the rule reports nothing, whatever the file and the
    document: [create] falls back on options with no extension and no policy. *)
Theorem X10_no_options_no_report
  (extname : string -> string) (basename : string -> string -> string)
  (env : Env) (context : Context.RuleContext) (definitions : list DefinitionNode) :
  Context.options context = [] ->
  lint extname basename env context definitions = [].
Proof.
  intros Hopt. unfold lint, create. rewrite Hopt.
  match goal with |- context [if ?b then _ else _] => destruct b end;
    [reflexivity | apply Document_defaultOptions].
Qed.

Lemma X10_no_options_no_report_witness :
  lint (fun _ => ".gql") (fun _ _ => "user-by-id")
    {| existsSync := fun _ => true; NODE_ENV := None |}
    {| Context.options := []; Context.getFilename := "src/user-by-id.gql" |}
    [OperationDefinition OpQuery (Some "UserById")] = [].
Proof.
  exact (X10_no_options_no_report (fun _ => ".gql") (fun _ _ => "user-by-id")
           {| existsSync := fun _ => true; NODE_ENV := None |}
           {| Context.options := []; Context.getFilename := "src/user-by-id.gql" |}
           [OperationDefinition OpQuery (Some "UserById")] eq_refl).
Defined.

(** X11: outside the test environment a file that does not exist on disk is
    not checked: whatever the options and the document, nothing is reported;
    under [NODE_ENV = 'test'], or for a file on disk, the reports are those
    of [Document] for the first options entry, the path's extension and its
    basename without that extension. *)
Theorem X11_virtual_files_skipped
  (extname : string -> string) (basename : string -> string -> string)
  (env : Env) (context : Context.RuleContext) (definitions : list DefinitionNode) :
  (NODE_ENV env <> Some "test" ->
   existsSync env (Context.getFilename context) = false ->
   lint extname basename env context definitions = [])
  /\ (NODE_ENV env = Some "test" \/ existsSync env (Context.getFilename context) = true ->
      forall o rest, Context.options context = o :: rest ->
      lint extname basename env context definitions =
      Document o (extname (Context.getFilename context))
        (basename (Context.getFilename context) (extname (Context.getFilename context)))
        definitions).
Proof.
  split.
  - intros Henv Hvirtual. unfold lint, create. rewrite Hvirtual.
    destruct (NODE_ENV env) as [v|]; [|reflexivity].
    destruct (v =? "test")%string eqn:Hv; [|reflexivity].
    apply String.eqb_eq in Hv. congruence.
  - intros H o rest Hopt. unfold lint, create. rewrite Hopt.
    destruct H as [-> | ->]; [reflexivity|].
    cbn [negb]. rewrite andb_false_r. reflexivity.
Qed.

Lemma X11_virtual_files_skipped_witness :
  lint (fun _ => ".gql") (fun _ _ => "user-by-id")
    {| existsSync := fun _ => false; NODE_ENV := Some "production" |}
    {| Context.options := [withExtension graphql (only TQuery (AsString (Style PascalCase)))];
       Context.getFilename := "src/user-by-id.gql" |}
    [OperationDefinition OpQuery (Some "UserById")] = []
  /\ lint (fun _ => ".gql") (fun _ _ => "user-by-id")
       {| existsSync := fun _ => false; NODE_ENV := Some "test" |}
       {| Context.options := [withExtension graphql (only TQuery (AsString (Style PascalCase)))];
          Context.getFilename := "src/user-by-id.gql" |}
       [OperationDefinition OpQuery (Some "UserById")]
     = Document (withExtension graphql (only TQuery (AsString (Style PascalCase))))
         ".gql" "user-by-id" [OperationDefinition OpQuery (Some "UserById")].
Proof.
  split.
  - apply (proj1 (X11_virtual_files_skipped (fun _ => ".gql") (fun _ _ => "user-by-id")
                    {| existsSync := fun _ => false; NODE_ENV := Some "production" |}
                    {| Context.options :=
                         [withExtension graphql (only TQuery (AsString (Style PascalCase)))];
                       Context.getFilename := "src/user-by-id.gql" |}
                    [OperationDefinition OpQuery (Some "UserById")])).
    + discriminate.
    + reflexivity.
  - apply (proj2 (X11_virtual_files_skipped (fun _ => ".gql") (fun _ _ => "user-by-id")
                    {| existsSync := fun _ => false; NODE_ENV := Some "test" |}
                    {| Context.options :=
                         [withExtension graphql (only TQuery (AsString (Style PascalCase)))];
                       Context.getFilename := "src/user-by-id.gql" |}
                    [OperationDefinition OpQuery (Some "UserById")])
             (or_introl eq_refl) _ [] eq_refl).
Defined.

(** ** What a MATCH_EXTENSION report says *)

(** X12: every MATCH_EXTENSION report names two different extensions: the
    file's own as [fileExtension], and as [expectedFileExtension] the
    configured one, which is one of [ACCEPTED_EXTENSIONS]. *)
Theorem X12_extension_report_names options fileExtension filename definitions r :
  In r (Document options fileExtension filename definitions) ->
  messageId r = MATCH_EXTENSION ->
  exists e,
    In e ACCEPTED_EXTENSIONS
    /\ Config.fileExtension options = Some e
    /\ param "fileExtension" (data r) = Some fileExtension
    /\ param "expectedFileExtension" (data r) = Some (extensionString e)
    /\ extensionString e <> fileExtension.
Proof.
  intros Hin Hmsg. rewrite Document_checks in Hin.
  apply in_app_or in Hin. destruct Hin as [Hin | Hin].
  2: { pose proof (styleCheck_messages options fileExtension filename definitions) as H.
       rewrite Forall_forall in H. specialize (H r Hin). congruence. }
  unfold extensionCheck in Hin.
  destruct (Config.fileExtension options) as [e|]; [|contradiction].
  destruct (extensionString e =? fileExtension)%string eqn:Heq; [contradiction|].
  destruct Hin as [<- | []].
  exists e. repeat split.
  - destruct e; cbn; tauto.
  - now apply String.eqb_neq.
Qed.

Lemma X12_extension_report_names_witness :
  exists e,
    In e ACCEPTED_EXTENSIONS
    /\ Config.fileExtension (onlyExtension graphql) = Some e
    /\ param "fileExtension"
         (data {| loc := REPORT_ON_FIRST_CHARACTER; messageId := MATCH_EXTENSION;
                  data := [("fileExtension", ".gql");
                           ("expectedFileExtension", ".graphql")] |}) = Some ".gql"
    /\ param "expectedFileExtension"
         (data {| loc := REPORT_ON_FIRST_CHARACTER; messageId := MATCH_EXTENSION;
                  data := [("fileExtension", ".gql");
                           ("expectedFileExtension", ".graphql")] |})
       = Some (extensionString e)
    /\ extensionString e <> ".gql".
Proof.
  apply (X12_extension_report_names (onlyExtension graphql) ".gql" "post"
           [OtherDefinition]
           {| loc := REPORT_ON_FIRST_CHARACTER; messageId := MATCH_EXTENSION;
              data := [("fileExtension", ".gql");
                       ("expectedFileExtension", ".graphql")] |}).
  - left. reflexivity.
  - reflexivity.
Defined.
